(** * live_heatmap.py: the serial frame decoder and the heatmap buffer

    A shallow embedding of [src/live_heatmap.py].  The script reads text
    lines from a serial port; it first waits for a line [CFG,<rows>,<cols>]
    (the wait loop), sets up a plot of a [rows x cols] placeholder, and then
    loops forever over lines [F,<timestamp>,<v0>,...], reshaping the samples
    row-major and handing them to [img.set_data].

    Modelling choices:
    - a line is the already decoded [str] returned by
      [ser.readline().decode(...)], as a [string] of ASCII characters;
    - Python's [str.strip], [str.split(",")] and [int(...)] (base 10, with
      CPython 3.11's default limit of 4300 digits) are written out below on
      ASCII text;
    - the program state is [Waiting] (the wait loop, [num_rows_sup is None]),
      [Running rows cols buffer] (the main loop, [buffer] being the data
      held by [img]), or [Stopped e] once an uncaught exception [e] has ended
      the script;
    - one call of [step] is one iteration of whichever loop is running; it
      also returns the matrix redrawn by [fig.canvas.flush_events()], if any;
    - [np.array(..., dtype=np.int32)] raises [OverflowError] on a Python int
      outside the int32 range (NumPy 2 behaviour), and [np.zeros] raises
      [ValueError] on a negative or unrepresentable size; allocation
      failures (memory exhaustion) are not modelled;
    - the plotting calls other than [np.zeros], [img.set_data] and the redraw
      have no effect on the state and are left out. *)

From Stdlib Require Import ZArith List String Ascii Bool Lia.
Import ListNotations.
Open Scope string_scope.
Open Scope Z_scope.

(** ** Python string primitives *)

(** [str.isspace] on ASCII characters: \t \n \v \f \r, the separators
    \x1c-\x1f and the space. *)
Definition py_isspace (ch : ascii) : bool :=
  let n := nat_of_ascii ch in
  ((9 <=? n) && (n <=? 13))%nat || ((28 <=? n) && (n <=? 32))%nat.

Fixpoint lstrip_chars (l : list ascii) : list ascii :=
  match l with
  | [] => []
  | ch :: rest => if py_isspace ch then lstrip_chars rest else l
  end.

(** [str.strip()]: whitespace removed at both ends. *)
Definition py_strip (s : string) : string :=
  string_of_list_ascii
    (rev (lstrip_chars (rev (lstrip_chars (list_ascii_of_string s))))).

(** [str.split(sep)] with a one-character separator: every separator
    splits, and the empty string gives [[""]]. *)
Fixpoint py_split (sep : ascii) (s : string) : list string :=
  match s with
  | EmptyString => [EmptyString]
  | String ch rest =>
      let parts := py_split sep rest in
      if Ascii.eqb ch sep then EmptyString :: parts
      else match parts with
           | p :: ps => String ch p :: ps
           | [] => [String ch EmptyString]
           end
  end.

(** [parts[i]] for a non-negative index: [None] is an [IndexError]. *)
Definition py_index {A} (l : list A) (i : nat) : option A := nth_error l i.

Definition digit_value (ch : ascii) : option Z :=
  let n := nat_of_ascii ch in
  if ((48 <=? n) && (n <=? 57))%nat then Some (Z.of_nat n - 48) else None.

(** Digits with single underscores between them, as [int()] accepts;
    [prev_digit] says whether the previous character was a digit. *)
Fixpoint parse_digits (l : list ascii) (acc : Z) (prev_digit : bool)
  : option Z :=
  match l with
  | [] => if prev_digit then Some acc else None
  | ch :: rest =>
      match digit_value ch with
      | Some d => parse_digits rest (acc * 10 + d) true
      | None =>
          if Ascii.eqb ch "_"%char && prev_digit
          then parse_digits rest acc false
          else None
      end
  end.

(** The whitespace [int()] skips around a literal ([Py_ISSPACE] in
    [PyLong_FromString]): \t \n \v \f \r and the space only, not the
    separators \x1c-\x1f that [str.strip] also removes. *)
Definition int_isspace (ch : ascii) : bool :=
  let n := nat_of_ascii ch in ((9 <=? n) && (n <=? 13))%nat || (n =? 32)%nat.

Fixpoint lstrip_int_space (l : list ascii) : list ascii :=
  match l with
  | [] => []
  | ch :: rest => if int_isspace ch then lstrip_int_space rest else l
  end.

Definition int_strip (l : list ascii) : list ascii :=
  rev (lstrip_int_space (rev (lstrip_int_space l))).

(** The number of decimal digits of a literal (underscores not counted). *)
Fixpoint count_digits (l : list ascii) : Z :=
  match l with
  | [] => 0
  | ch :: rest =>
      match digit_value ch with
      | Some _ => Z.succ (count_digits rest)
      | None => count_digits rest
      end
  end.

(** [sys.get_int_max_str_digits()] by default (CPython 3.11 and later):
    [int()] rejects a decimal literal with more digits. *)
Definition int_max_str_digits : Z := 4300.

(** [int(s)] in base 10: surrounding whitespace, an optional sign, and at
    least one digit, at most [int_max_str_digits] of them; [None] is the
    [ValueError] it raises otherwise. *)
Definition py_int (s : string) : option Z :=
  let body l :=
    if count_digits l <=? int_max_str_digits then parse_digits l 0 false
    else None in
  match int_strip (list_ascii_of_string s) with
  | "-"%char :: rest => option_map Z.opp (body rest)
  | "+"%char :: rest => body rest
  | l => body l
  end.

(** [list(map(int, xs))]: the first token [int] rejects raises. *)
Fixpoint map_int (xs : list string) : option (list Z) :=
  match xs with
  | [] => Some []
  | x :: rest =>
      match py_int x with
      | None => None
      | Some v => option_map (cons v) (map_int rest)
      end
  end.

(** ** NumPy primitives *)

Definition matrix := list (list Z).

Definition int32_min : Z := - 2 ^ 31.
Definition int32_max : Z := 2 ^ 31 - 1.

Definition in_int32 (v : Z) : bool := (int32_min <=? v) && (v <=? int32_max).

(** [np.array(vs, dtype=np.int32)]: [None] is the [OverflowError] raised
    by a value outside the int32 range. *)
Definition np_array_int32 (vs : list Z) : option (list Z) :=
  if forallb in_int32 vs then Some vs else None.

(** [n] rows of [c] consecutive elements, row-major. *)
Fixpoint reshape_rows (n c : nat) (vs : list Z) : matrix :=
  match n with
  | O => []
  | S n' => firstn c vs :: reshape_rows n' c (skipn c vs)
  end.

(** [values.reshape((rows, cols))] for the non-negative dimensions the
    script can reach ([np.zeros] has already rejected negative ones):
    [None] is the [ValueError] raised when the sizes differ. *)
Definition np_reshape (rows cols : Z) (vs : list Z) : option matrix :=
  if Z.of_nat (List.length vs) =? rows * cols
  then Some (reshape_rows (Z.to_nat rows) (Z.to_nat cols) vs)
  else None.

(** [np.zeros((rows, cols))] for non-negative dimensions. *)
Definition np_zeros (rows cols : Z) : matrix :=
  repeat (repeat 0 (Z.to_nat cols)) (Z.to_nat rows).

(** The colour scale of [ax.imshow(..., vmin=0, vmax=vmax)]: values below
    [vmin] and above [vmax] are drawn with the end colours. *)
Definition vmin : Z := 0.
Definition vmax : Z := 1023.

Definition color_level (v : Z) : Z := Z.max vmin (Z.min vmax v).

(** ** Program state *)

Inductive exn := IndexError | ValueError | OverflowError.

Inductive state :=
| Waiting
| Running (num_rows_sup num_cols_sen : Z) (buffer : matrix)
| Stopped (e : exn).

(** The largest [npy_intp]. *)
Definition intp_max : Z := 2 ^ 63 - 1.

(** The size checks of [np.zeros((rows, cols))] (float64, 8 bytes per
    entry) for non-negative dimensions: each dimension must fit an
    [npy_intp] ("Maximum allowed dimension exceeded"), and the byte count,
    multiplied up dimension by dimension from the item size, must not pass
    [intp_max] ("array is too big").  Both failures are [ValueError]s. *)
Definition np_zeros_size_ok (rows cols : Z) : bool :=
  (rows <=? intp_max) && (cols <=? intp_max) &&
  (8 * rows <=? intp_max) && (8 * rows * cols <=? intp_max).

(** The plot set-up between the two loops: [np.zeros] raises [ValueError]
    on a negative dimension or a size it cannot represent; otherwise [img]
    shows the zero placeholder.  Running out of memory while allocating the
    placeholder depends on the machine, not on the line, and is not
    modelled. *)
Definition plot_setup (rows cols : Z) : state :=
  if (rows <? 0) || (cols <? 0) || negb (np_zeros_size_ok rows cols)
  then Stopped ValueError
  else Running rows cols (np_zeros rows cols).

(** One iteration of the wait loop (lines 13-19). *)
Definition cfg_wait_body (line : string) : state :=
  let parts := py_split "," (py_strip line) in
  match py_index parts 0 with
  | None => Stopped IndexError
  | Some p0 =>
      if String.eqb p0 "CFG" then
        match py_index parts 1 with
        | None => Stopped IndexError
        | Some t1 =>
            match py_int t1 with
            | None => Stopped ValueError
            | Some rows =>
                match py_index parts 2 with
                | None => Stopped IndexError
                | Some t2 =>
                    match py_int t2 with
                    | None => Stopped ValueError
                    | Some cols => plot_setup rows cols
                    end
                end
            end
        end
      else Waiting
  end.

(** [map(int, parts[2:])] of an [F] line: its sample values. *)
Definition frame_samples (parts : list string) : option (list Z) :=
  map_int (skipn 2 parts).

(** The frame guard of line 45. *)
Definition frame_guard (rows cols : Z) (parts : list string) (p0 : string)
  : bool :=
  String.eqb p0 "F" && (2 + rows * cols <=? Z.of_nat (List.length parts)).

(** One iteration of the main loop (lines 38-51); the second component is
    the frame redrawn by [flush_events], if any. *)
Definition main_body (rows cols : Z) (buffer : matrix) (line0 : string)
  : state * option matrix :=
  let line := py_strip line0 in
  if String.eqb line "" then (Running rows cols buffer, None) else
  let parts := py_split "," line in
  match py_index parts 0 with
  | None => (Stopped IndexError, None)
  | Some p0 =>
      if frame_guard rows cols parts p0 then
        match frame_samples parts with
        | None => (Stopped ValueError, None)
        | Some ints =>
            match np_array_int32 ints with
            | None => (Stopped OverflowError, None)
            | Some values =>
                match np_reshape rows cols values with
                | None => (Stopped ValueError, None)
                | Some frame => (Running rows cols frame, Some frame)
                end
            end
        end
      else (Running rows cols buffer, None)
  end.

Definition step (s : state) (line : string) : state * option matrix :=
  match s with
  | Waiting => (cfg_wait_body line, None)
  | Running rows cols buffer => main_body rows cols buffer line
  | Stopped e => (Stopped e, None)
  end.

Definition opt_list {A} (o : option A) : list A :=
  match o with Some x => [x] | None => [] end.

(** The script fed a sequence of lines: the final state and the frames
    redrawn, in order. *)
Fixpoint run (s : state) (lines : list string) : state * list matrix :=
  match lines with
  | [] => (s, [])
  | l :: ls =>
      let (s1, ev) := step s l in
      let (s2, evs) := run s1 ls in
      (s2, (opt_list ev ++ evs)%list)
  end.

(** The first token of a line, [parts[0]]. *)
Definition first_token (line : string) : string :=
  hd "" (py_split "," (py_strip line)).

Definition buffer_of (s : state) : option matrix :=
  match s with Running _ _ b => Some b | _ => None end.

(** A frame well formed for a [rows x cols] grid: the row-major reshape of
    [rows * cols] samples. *)
Definition frame_ok (rows cols : Z) (m : matrix) : Prop :=
  exists vs, Z.of_nat (List.length vs) = rows * cols /\
             m = reshape_rows (Z.to_nat rows) (Z.to_nat cols) vs.

(** The number of occurrences of a character in a string. *)
Fixpoint count_char (ch : ascii) (s : string) : nat :=
  match s with
  | EmptyString => O
  | String c rest =>
      if Ascii.eqb c ch then S (count_char ch rest) else count_char ch rest
  end.

(** A matrix of [rows] rows of [cols] entries. *)
Definition matrix_shape (rows cols : Z) (m : matrix) : Prop :=
  List.length m = Z.to_nat rows /\
  Forall (fun row => List.length row = Z.to_nat cols) m.

(** The buffer of a running script has the shape of its grid, and the grid
    has non-negative dimensions. *)
Definition shape_ok (s : state) : Prop :=
  match s with
  | Running rows cols buffer =>
      0 <= rows /\ 0 <= cols /\ matrix_shape rows cols buffer
  | _ => True
  end.

(** ** Auxiliary lemmas *)

Lemma py_split_not_nil : forall sep s, py_split sep s <> [].
Proof.
  intros sep s; destruct s as [|ch rest]; simpl; [discriminate|].
  destruct (Ascii.eqb ch sep); [discriminate|].
  destruct (py_split sep rest); discriminate.
Qed.

Lemma py_index_first : forall sep s,
  py_index (py_split sep s) 0 = Some (hd "" (py_split sep s)).
Proof.
  intros sep s; pose proof (py_split_not_nil sep s) as H.
  destruct (py_split sep s); [congruence | reflexivity].
Qed.

Lemma py_split_empty : forall sep, py_split sep "" = [""].
Proof. reflexivity. Qed.

Lemma run_stopped : forall e ls, run (Stopped e) ls = (Stopped e, []).
Proof. intros e ls; induction ls as [|l ls IH]; simpl; [|rewrite IH]; reflexivity. Qed.

Lemma run_app : forall s xs ys,
  run s (xs ++ ys) =
  let (s1, e1) := run s xs in let (s2, e2) := run s1 ys in (s2, (e1 ++ e2)%list).
Proof.
  intros s xs; revert s; induction xs as [|x xs IH]; intros s ys; simpl.
  - destruct (run s ys); reflexivity.
  - destruct (step s x) as [s1 ev]; rewrite IH.
    destruct (run s1 xs) as [s2 e2]; destruct (run s2 ys) as [s3 e3].
    rewrite app_assoc; reflexivity.
Qed.

(** Unfolding the main loop once the line is known not to be empty. *)
Lemma main_body_parts : forall rows cols buffer line,
  py_strip line <> "" ->
  main_body rows cols buffer line =
  let parts := py_split "," (py_strip line) in
  if frame_guard rows cols parts (hd "" parts) then
    match frame_samples parts with
    | None => (Stopped ValueError, None)
    | Some ints =>
        match np_array_int32 ints with
        | None => (Stopped OverflowError, None)
        | Some values =>
            match np_reshape rows cols values with
            | None => (Stopped ValueError, None)
            | Some frame => (Running rows cols frame, Some frame)
            end
        end
    end
  else (Running rows cols buffer, None).
Proof.
  intros rows cols buffer line Hne; unfold main_body.
  destruct (String.eqb_spec (py_strip line) "") as [E|_]; [contradiction|].
  rewrite py_index_first; reflexivity.
Qed.

Lemma strip_nonempty_of_first : forall line p0 rest,
  py_split "," (py_strip line) = p0 :: rest -> p0 <> "" \/ rest <> [] ->
  py_strip line <> "".
Proof.
  intros line p0 rest H Hne E; rewrite E in H; simpl in H.
  injection H as <- <-; destruct Hne; congruence.
Qed.

(** The three shapes of one main-loop iteration. *)
Lemma main_body_cases : forall rows cols buffer line s' ev,
  main_body rows cols buffer line = (s', ev) ->
  (s' = Running rows cols buffer /\ ev = None) \/
  (exists m, s' = Running rows cols m /\ ev = Some m) \/
  (exists e, s' = Stopped e /\ ev = None).
Proof.
  intros rows cols buffer line s' ev H; unfold main_body in H.
  destruct (String.eqb (py_strip line) "").
  { injection H as <- <-; left; auto. }
  destruct (py_index _ 0) as [p0|]; [|injection H as <- <-; eauto 6].
  destruct (frame_guard _ _ _ _); [|injection H as <- <-; left; auto].
  destruct (frame_samples _) as [ints|]; [|injection H as <- <-; eauto 6].
  destruct (np_array_int32 ints) as [vs|]; [|injection H as <- <-; eauto 6].
  destruct (np_reshape _ _ vs) as [m|]; injection H as <- <-; eauto 6.
Qed.

(** What a redraw of the main loop is made of. *)
Lemma main_body_redraw : forall rows cols buffer line s' m,
  main_body rows cols buffer line = (s', Some m) ->
  exists vs,
    frame_samples (py_split "," (py_strip line)) = Some vs /\
    forallb in_int32 vs = true /\
    Z.of_nat (List.length vs) = rows * cols /\
    m = reshape_rows (Z.to_nat rows) (Z.to_nat cols) vs /\
    s' = Running rows cols m.
Proof.
  intros rows cols buffer line s' m H; unfold main_body in H.
  destruct (String.eqb (py_strip line) ""); [discriminate|].
  destruct (py_index _ 0) as [p0|]; [|discriminate].
  destruct (frame_guard _ _ _ _); [|discriminate].
  destruct (frame_samples _) as [ints|]; [|discriminate].
  unfold np_array_int32 in H; destruct (forallb in_int32 ints) eqn:Hi;
    [|discriminate].
  unfold np_reshape in H.
  destruct (Z.of_nat (List.length ints) =? rows * cols) eqn:Hl; [|discriminate].
  injection H as <- <-; apply Z.eqb_eq in Hl; eauto 7.
Qed.

(** The redraw of one main-loop iteration does not read the buffer. *)
Lemma main_body_buffer_indep : forall rows cols b1 b2 line,
  snd (main_body rows cols b1 line) = snd (main_body rows cols b2 line).
Proof.
  intros rows cols b1 b2 line; unfold main_body.
  destruct (String.eqb (py_strip line) ""); [reflexivity|].
  destruct (py_index _ 0) as [p0|]; [|reflexivity].
  destruct (frame_guard _ _ _ _); [|reflexivity].
  destruct (frame_samples _) as [ints|]; [|reflexivity].
  destruct (np_array_int32 ints) as [vs|]; [|reflexivity].
  destruct (np_reshape _ _ vs); reflexivity.
Qed.

Lemma map_int_length : forall xs vs,
  map_int xs = Some vs -> List.length vs = List.length xs.
Proof.
  induction xs as [|x xs IH]; intros vs H; simpl in H.
  - injection H as <-; reflexivity.
  - destruct (py_int x); [|discriminate].
    destruct (map_int xs) as [ws|] eqn:E; simpl in H; [|discriminate].
    injection H as <-; simpl; f_equal; auto.
Qed.

Lemma reshape_rows_nth : forall n c vs i j,
  (i < n)%nat -> (j < c)%nat ->
  nth j (nth i (reshape_rows n c vs) []) 0 = nth (i * c + j) vs 0.
Proof.
  induction n as [|n IH]; intros c vs i j Hi Hj; [lia|].
  destruct i as [|i]; simpl.
  - rewrite nth_firstn; replace (j <? c)%nat with true; [reflexivity|].
    symmetry; apply Nat.ltb_lt; exact Hj.
  - rewrite IH by lia; rewrite nth_skipn; f_equal; lia.
Qed.

Lemma reshape_rows_shape : forall n c vs,
  List.length vs = (n * c)%nat ->
  List.length (reshape_rows n c vs) = n /\
  Forall (fun row => List.length row = c) (reshape_rows n c vs).
Proof.
  induction n as [|n IH]; intros c vs H; simpl; [split; auto|].
  destruct (IH c (skipn c vs)) as [H1 H2].
  { rewrite length_skipn; simpl in H; lia. }
  split; [f_equal; exact H1|].
  constructor; [|exact H2].
  rewrite length_firstn; simpl in H; lia.
Qed.

(** An [F] line with exactly [rows * cols + 2] tokens and int32 samples
    is drawn. *)
Lemma main_body_accept : forall rows cols buffer line vs,
  0 <= rows * cols ->
  first_token line = "F" ->
  Z.of_nat (List.length (py_split "," (py_strip line))) = 2 + rows * cols ->
  frame_samples (py_split "," (py_strip line)) = Some vs ->
  forallb in_int32 vs = true ->
  main_body rows cols buffer line =
  (Running rows cols (reshape_rows (Z.to_nat rows) (Z.to_nat cols) vs),
   Some (reshape_rows (Z.to_nat rows) (Z.to_nat cols) vs)).
Proof.
  intros rows cols buffer line vs Hrc Hf Hlen Hs Hi.
  unfold first_token in Hf.
  assert (Hne : py_strip line <> "").
  { destruct (py_split "," (py_strip line)) as [|p0 rest] eqn:E;
      [simpl in Hf; subst; discriminate|].
    apply (strip_nonempty_of_first line p0 rest E); left; simpl in Hf;
      subst; discriminate. }
  rewrite main_body_parts by exact Hne; cbv zeta.
  unfold frame_guard; rewrite Hf, Hlen, Z.leb_refl; simpl.
  rewrite Hs; unfold np_array_int32; rewrite Hi.
  unfold np_reshape.
  replace (Z.of_nat (List.length vs) =? rows * cols) with true; [reflexivity|].
  symmetry; apply Z.eqb_eq.
  unfold frame_samples in Hs; apply map_int_length in Hs.
  rewrite Hs, length_skipn; lia.
Qed.

(** A line with fewer than [rows * cols + 2] tokens leaves the main loop
    as it was. *)
Lemma main_body_short : forall rows cols buffer line,
  Z.of_nat (List.length (py_split "," (py_strip line))) < 2 + rows * cols ->
  main_body rows cols buffer line = (Running rows cols buffer, None).
Proof.
  intros rows cols buffer line Hlt; unfold main_body.
  destruct (String.eqb (py_strip line) ""); [reflexivity|].
  rewrite py_index_first; unfold frame_guard.
  replace (2 + rows * cols <=? _) with false; [now rewrite andb_false_r|].
  symmetry; apply Z.leb_gt; exact Hlt.
Qed.


Lemma cfg_wait_not_cfg : forall line,
  first_token line <> "CFG" -> cfg_wait_body line = Waiting.
Proof.
  intros line H; unfold cfg_wait_body; rewrite py_index_first.
  replace (String.eqb _ "CFG") with false; [reflexivity|].
  symmetry; apply String.eqb_neq; exact H.
Qed.

Lemma plot_setup_not_waiting : forall rows cols, plot_setup rows cols <> Waiting.
Proof.
  intros rows cols; unfold plot_setup.
  destruct (_ || _ || _); discriminate.
Qed.

Lemma cfg_wait_cfg : forall line,
  first_token line = "CFG" -> cfg_wait_body line <> Waiting.
Proof.
  intros line H; unfold cfg_wait_body; rewrite py_index_first.
  unfold first_token in H; rewrite H, String.eqb_refl.
  destruct (py_index (py_split "," (py_strip line)) 1) as [t1|];
    [|discriminate].
  destruct (py_int t1); [|discriminate].
  destruct (py_index (py_split "," (py_strip line)) 2) as [t2|];
    [|discriminate].
  destruct (py_int t2); [|discriminate].
  apply plot_setup_not_waiting.
Qed.

(** The wait loop never redraws, and stays as it is until a [CFG] line. *)
Lemma run_waiting_no_cfg : forall pre,
  Forall (fun x => first_token x <> "CFG") pre ->
  run Waiting pre = (Waiting, []).
Proof.
  induction 1 as [|l pre Hl Hpre IH]; [reflexivity|].
  simpl; rewrite cfg_wait_not_cfg by exact Hl; rewrite IH; reflexivity.
Qed.

(** Without redraws, the main loop keeps its grid and its buffer. *)
Lemma run_running_quiet : forall ls rows cols buffer s',
  run (Running rows cols buffer) ls = (s', []) ->
  s' = Running rows cols buffer \/ exists e, s' = Stopped e.
Proof.
  induction ls as [|l ls IH]; intros rows cols buffer s' H; simpl in H.
  - injection H as <-; left; reflexivity.
  - destruct (main_body rows cols buffer l) as [s1 ev] eqn:E.
    destruct (run s1 ls) as [s2 evs] eqn:R.
    injection H as <- Hev.
    apply main_body_cases in E.
    destruct E as [[-> ->] | [[m [-> ->]] | [e [-> ->]]]].
    + simpl in Hev; subst evs; exact (IH _ _ _ _ R).
    + discriminate.
    + rewrite run_stopped in R; injection R as <- _; right; eauto.
Qed.

Lemma step_redraw : forall s line s' m,
  step s line = (s', Some m) ->
  exists rows cols buffer, s = Running rows cols buffer /\
                           s' = Running rows cols m.
Proof.
  intros [|rows cols buffer|e] line s' m H; simpl in H; try discriminate.
  apply main_body_redraw in H; destruct H as [vs [_ [_ [_ [_ ->]]]]].
  eauto.
Qed.

(** In the main loop the grid never changes. *)
Lemma run_running_grid : forall ls rows cols buffer,
  match fst (run (Running rows cols buffer) ls) with
  | Running r c _ => r = rows /\ c = cols
  | Stopped _ => True
  | Waiting => False
  end /\
  Forall (frame_ok rows cols) (snd (run (Running rows cols buffer) ls)).
Proof.
  induction ls as [|l ls IH]; intros rows cols buffer; simpl; [auto|].
  destruct (main_body rows cols buffer l) as [s1 ev] eqn:E.
  destruct (run s1 ls) as [s2 evs] eqn:R; simpl.
  assert (Hev : Forall (frame_ok rows cols) (opt_list ev)).
  { destruct ev as [m|]; simpl; [|constructor].
    apply main_body_redraw in E; destruct E as [vs [_ [_ [Hl [Hm _]]]]].
    constructor; [exists vs; auto | constructor]. }
  apply main_body_cases in E.
  destruct E as [[-> _] | [[m [-> _]] | [e [-> _]]]].
  - specialize (IH rows cols buffer); rewrite R in IH; simpl in IH.
    destruct IH as [IH1 IH2]; split; [exact IH1|apply Forall_app; auto].
  - specialize (IH rows cols m); rewrite R in IH; simpl in IH.
    destruct IH as [IH1 IH2]; split; [exact IH1|apply Forall_app; auto].
  - rewrite run_stopped in R; injection R as <- <-; simpl.
    split; [exact I|rewrite app_nil_r; exact Hev].
Qed.

Lemma last_app_cons : forall (A : Type) (l : list A) x xs d,
  last (l ++ x :: xs)%list d = last (x :: xs) d.
Proof.
  intros A l; induction l as [|y l IH]; intros x xs d; [reflexivity|].
  simpl; destruct (l ++ x :: xs)%list as [|z zs] eqn:E.
  - destruct l; discriminate.
  - rewrite <- E; apply IH.
Qed.

Lemma map_int_reject : forall xs t,
  In t xs -> py_int t = None -> map_int xs = None.
Proof.
  induction xs as [|x xs IH]; intros t Hin Ht; [destruct Hin|].
  simpl; destruct Hin as [<-|Hin]; [rewrite Ht; reflexivity|].
  destruct (py_int x); [|reflexivity].
  rewrite (IH t Hin Ht); reflexivity.
Qed.

(** An ["F"] line that passes the guard of line 45. *)
Lemma main_body_guard_pass : forall rows cols buffer line,
  first_token line = "F" ->
  2 + rows * cols <= Z.of_nat (List.length (py_split "," (py_strip line))) ->
  main_body rows cols buffer line =
  match frame_samples (py_split "," (py_strip line)) with
  | None => (Stopped ValueError, None)
  | Some ints =>
      match np_array_int32 ints with
      | None => (Stopped OverflowError, None)
      | Some values =>
          match np_reshape rows cols values with
          | None => (Stopped ValueError, None)
          | Some frame => (Running rows cols frame, Some frame)
          end
      end
  end.
Proof.
  intros rows cols buffer line Hf Hle.
  assert (Hne : py_strip line <> "").
  { intros E; unfold first_token in Hf; rewrite E in Hf; discriminate. }
  rewrite main_body_parts by exact Hne; cbv zeta.
  unfold frame_guard; unfold first_token in Hf; rewrite Hf.
  apply Z.leb_le in Hle; rewrite Hle; reflexivity.
Qed.


(** A parsed sample outside int32 stops a frame that passes the guard. *)
Lemma main_body_overflow : forall rows cols buffer line vs v,
  first_token line = "F" ->
  2 + rows * cols <= Z.of_nat (List.length (py_split "," (py_strip line))) ->
  frame_samples (py_split "," (py_strip line)) = Some vs ->
  In v vs -> in_int32 v = false ->
  main_body rows cols buffer line = (Stopped OverflowError, None).
Proof.
  intros rows cols buffer line vs v Hf Hle Hs Hin Hv.
  rewrite main_body_guard_pass by assumption.
  rewrite Hs; unfold np_array_int32.
  replace (forallb in_int32 vs) with false; [reflexivity|].
  symmetry; apply Bool.not_true_iff_false; intros Hall.
  rewrite forallb_forall in Hall; rewrite (Hall v Hin) in Hv; discriminate.
Qed.




(** ** The claims *)

(** C1 (amended).  For a configured grid and a line whose first token is
    ["F"]: with fewer than [rows * cols + 2] tokens the line is ignored;
    with exactly [rows * cols + 2] tokens whose samples are int32 integers
    the frame is drawn; with exactly [rows * cols + 2] tokens and a sample
    token that is not an integer, [int()] raises [ValueError]. *)
Theorem C1_frame_length_guard : forall rows cols buffer line,
  0 <= rows -> 0 <= cols -> first_token line = "F" ->
  let parts := py_split "," (py_strip line) in
  (Z.of_nat (List.length parts) < 2 + rows * cols ->
   step (Running rows cols buffer) line = (Running rows cols buffer, None)) /\
  (Z.of_nat (List.length parts) = 2 + rows * cols ->
   (forall vs, frame_samples parts = Some vs -> forallb in_int32 vs = true ->
    step (Running rows cols buffer) line =
    (Running rows cols (reshape_rows (Z.to_nat rows) (Z.to_nat cols) vs),
     Some (reshape_rows (Z.to_nat rows) (Z.to_nat cols) vs))) /\
   (frame_samples parts = None ->
    step (Running rows cols buffer) line = (Stopped ValueError, None))).
Proof.
  intros rows cols buffer line Hr Hc Hf parts; simpl; split.
  - apply main_body_short.
  - intros Hlen; split.
    + intros vs Hs Hi; apply main_body_accept; auto; lia.
    + intros Hs.
      assert (Hne : py_strip line <> "").
      { intros E; unfold first_token in Hf; rewrite E in Hf; discriminate. }
      rewrite main_body_parts by exact Hne; cbv zeta.
      unfold first_token in Hf; unfold frame_guard; subst parts.
      rewrite Hf, Hlen, Z.leb_refl; simpl; rewrite Hs; reflexivity.
Qed.

Lemma C1_witness :
  0 <= 2 /\ 0 <= 3 /\ first_token "F,100,1,2,3,4,5,6" = "F" /\
  Z.of_nat (List.length (py_split "," (py_strip "F,100,1,2,3,4,5,6")))
    = 2 + 2 * 3 /\
  step (Running 2 3 (np_zeros 2 3)) "F,100,1,2,3,4,5,6" =
  (Running 2 3 [[1; 2; 3]; [4; 5; 6]], Some [[1; 2; 3]; [4; 5; 6]]).
Proof.
  assert (H := C1_frame_length_guard 2 3 (np_zeros 2 3) "F,100,1,2,3,4,5,6").
  assert (H1 : 0 <= 2) by lia; assert (H2 : 0 <= 3) by lia.
  assert (H3 : first_token "F,100,1,2,3,4,5,6" = "F") by reflexivity.
  assert (H4 : Z.of_nat (List.length (py_split "," (py_strip "F,100,1,2,3,4,5,6")))
    = 2 + 2 * 3) by reflexivity.
  destruct (H H1 H2 H3) as [_ H5].
  destruct (H5 H4) as [H6 _].
  refine (conj H1 (conj H2 (conj H3 (conj H4 _)))).
  exact (H6 [1; 2; 3; 4; 5; 6] eq_refl eq_refl).
Defined.

(** C1 counterexample: a frame line with exactly [2 * 3 + 2] tokens whose
    sample tokens are not all integers is not drawn: the script stops with
    [ValueError]. *)
Lemma C1_counterexample :
  Z.of_nat (List.length (py_split "," (py_strip "F,100,x,2,3,4,5,6")))
    = 2 + 2 * 3 /\
  step (Running 2 3 (np_zeros 2 3)) "F,100,x,2,3,4,5,6"
    = (Stopped ValueError, None).
Proof. split; reflexivity. Qed.




(** C3.  After ["CFG,2,3"], the frame ["F,100,1,2,3,4,5,6"] is drawn as
    [[1;2;3];[4;5;6]]; in general a drawn frame is the row-major reshape
    of its samples: [rows] rows of [cols] entries, entry [(i, j)] being
    sample [i * cols + j]. *)
Theorem C3_row_major_reshape :
  run Waiting ["CFG,2,3"; "F,100,1,2,3,4,5,6"] =
    (Running 2 3 [[1; 2; 3]; [4; 5; 6]], [[[1; 2; 3]; [4; 5; 6]]]) /\
  forall rows cols buffer line s' m,
    0 <= rows -> 0 <= cols ->
    step (Running rows cols buffer) line = (s', Some m) ->
    exists vs,
      frame_samples (py_split "," (py_strip line)) = Some vs /\
      List.length m = Z.to_nat rows /\
      Forall (fun row => List.length row = Z.to_nat cols) m /\
      forall i j, (i < Z.to_nat rows)%nat -> (j < Z.to_nat cols)%nat ->
        nth j (nth i m []) 0 = nth (i * Z.to_nat cols + j) vs 0.
Proof.
  split; [reflexivity|].
  intros rows cols buffer line s' m Hr Hc H; simpl in H.
  apply main_body_redraw in H.
  destruct H as [vs [Hs [_ [Hl [-> _]]]]].
  exists vs; split; [exact Hs|].
  assert (Hn : List.length vs = (Z.to_nat rows * Z.to_nat cols)%nat) by lia.
  destruct (reshape_rows_shape _ _ _ Hn) as [H1 H2].
  split; [exact H1|split; [exact H2|]].
  intros i j Hi Hj; apply reshape_rows_nth; assumption.
Qed.

Lemma C3_witness :
  0 <= 2 /\ 0 <= 3 /\
  step (Running 2 3 (np_zeros 2 3)) "F,100,1,2,3,4,5,6" =
    (Running 2 3 [[1; 2; 3]; [4; 5; 6]], Some [[1; 2; 3]; [4; 5; 6]]) /\
  exists vs,
    frame_samples (py_split "," (py_strip "F,100,1,2,3,4,5,6")) = Some vs /\
    List.length [[1; 2; 3]; [4; 5; 6]] = Z.to_nat 2 /\
    Forall (fun row => List.length row = Z.to_nat 3) [[1; 2; 3]; [4; 5; 6]] /\
    forall i j, (i < Z.to_nat 2)%nat -> (j < Z.to_nat 3)%nat ->
      nth j (nth i [[1; 2; 3]; [4; 5; 6]] []) 0 = nth (i * Z.to_nat 3 + j) vs 0.
Proof.
  assert (H1 : 0 <= 2) by lia; assert (H2 : 0 <= 3) by lia.
  assert (E : step (Running 2 3 (np_zeros 2 3)) "F,100,1,2,3,4,5,6" =
    (Running 2 3 [[1; 2; 3]; [4; 5; 6]], Some [[1; 2; 3]; [4; 5; 6]]))
    by reflexivity.
  refine (conj H1 (conj H2 (conj E _))).
  exact (proj2 C3_row_major_reshape 2 3 _ _ _ _ H1 H2 E).
Defined.

(** C4 (amended).  The timestamp token is never parsed: two lines whose
    tokens differ only in the second one have the same effect in the main
    loop, so a non-integer timestamp does not stop a frame from being
    drawn. *)
Theorem C4_timestamp_not_parsed : forall rows cols buffer l1 l2 t1 t2 rest,
  py_split "," (py_strip l1) = "F" :: t1 :: rest ->
  py_split "," (py_strip l2) = "F" :: t2 :: rest ->
  step (Running rows cols buffer) l1 = step (Running rows cols buffer) l2.
Proof.
  intros rows cols buffer l1 l2 t1 t2 rest H1 H2; simpl.
  rewrite (main_body_parts rows cols buffer l1)
    by (apply (strip_nonempty_of_first l1 _ _ H1); left; discriminate).
  rewrite (main_body_parts rows cols buffer l2)
    by (apply (strip_nonempty_of_first l2 _ _ H2); left; discriminate).
  cbv zeta; rewrite H1, H2; reflexivity.
Qed.

Lemma C4_witness :
  py_split "," (py_strip "F,abc,1,2,3,4,5,6")
    = "F" :: "abc" :: ["1"; "2"; "3"; "4"; "5"; "6"] /\
  py_split "," (py_strip "F,100,1,2,3,4,5,6")
    = "F" :: "100" :: ["1"; "2"; "3"; "4"; "5"; "6"] /\
  step (Running 2 3 (np_zeros 2 3)) "F,abc,1,2,3,4,5,6"
    = step (Running 2 3 (np_zeros 2 3)) "F,100,1,2,3,4,5,6".
Proof.
  assert (H1 : py_split "," (py_strip "F,abc,1,2,3,4,5,6")
    = "F" :: "abc" :: ["1"; "2"; "3"; "4"; "5"; "6"]) by reflexivity.
  assert (H2 : py_split "," (py_strip "F,100,1,2,3,4,5,6")
    = "F" :: "100" :: ["1"; "2"; "3"; "4"; "5"; "6"]) by reflexivity.
  exact (conj H1 (conj H2 (C4_timestamp_not_parsed 2 3 _ _ _ _ _ _ H1 H2))).
Defined.

(** C4 counterexample: the timestamp token ["abc"] is not an integer, yet
    the frame is drawn. *)
Lemma C4_counterexample :
  py_int "abc" = None /\
  step (Running 2 3 (np_zeros 2 3)) "F,abc,1,2,3,4,5,6" =
    (Running 2 3 [[1; 2; 3]; [4; 5; 6]], Some [[1; 2; 3]; [4; 5; 6]]).
Proof. split; reflexivity. Qed.

(** C5.  The grid is set by the first line whose first token is ["CFG"]
    (that line ends the wait loop), and after it, whatever lines follow
    (further ["CFG"] lines included), the grid stays the same and every
    drawn frame is the reshape of exactly [rows * cols] samples. *)
Theorem C5_grid_set_once : forall pre line post,
  Forall (fun x => first_token x <> "CFG") pre ->
  first_token line = "CFG" ->
  fst (run Waiting (pre ++ [line])) = cfg_wait_body line /\
  cfg_wait_body line <> Waiting /\
  forall rows cols buffer,
    cfg_wait_body line = Running rows cols buffer ->
    let (s, frames) := run Waiting (pre ++ line :: post) in
    match s with
    | Running r c _ => r = rows /\ c = cols
    | Stopped _ => True
    | Waiting => False
    end /\
    Forall (frame_ok rows cols) frames.
Proof.
  intros pre line post Hpre Hl; split; [|split].
  - rewrite run_app, run_waiting_no_cfg by exact Hpre; reflexivity.
  - apply cfg_wait_cfg; exact Hl.
  - intros rows cols buffer Hc.
    rewrite run_app, run_waiting_no_cfg by exact Hpre; simpl.
    rewrite Hc.
    destruct (run_running_grid post rows cols buffer) as [G1 G2].
    destruct (run (Running rows cols buffer) post) as [s frames].
    simpl in G1, G2; split; assumption.
Qed.

Lemma C5_witness :
  Forall (fun x => first_token x <> "CFG") ["hello"; "F,1,2"] /\
  first_token "CFG,2,3" = "CFG" /\
  fst (run Waiting (["hello"; "F,1,2"] ++ ["CFG,2,3"])) = cfg_wait_body "CFG,2,3".
Proof.
  assert (H1 : Forall (fun x => first_token x <> "CFG") ["hello"; "F,1,2"]).
  { repeat constructor; vm_compute; discriminate. }
  assert (H2 : first_token "CFG,2,3" = "CFG") by reflexivity.
  exact (conj H1 (conj H2 (proj1 (C5_grid_set_once _ _ ["CFG,4,5"] H1 H2)))).
Defined.




(** C7.  Latest frame wins: whenever the script is still running after a
    sequence of lines that drew at least one frame, the buffer shown is the
    last frame drawn; a drawn frame replaces the buffer, and what is drawn
    does not depend on the earlier buffer. *)
Theorem C7_latest_frame_wins :
  (forall s lines rows cols buffer frames,
    run s lines = (Running rows cols buffer, frames) -> frames <> [] ->
    buffer = last frames []) /\
  (forall rows cols buffer line s' m,
    step (Running rows cols buffer) line = (s', Some m) ->
    s' = Running rows cols m) /\
  (forall rows cols b1 b2 line,
    snd (step (Running rows cols b1) line) =
    snd (step (Running rows cols b2) line)).
Proof.
  split; [|split].
  - intros s lines; revert s; induction lines as [|l ls IH];
      intros s rows cols buffer frames H Hne; simpl in H.
    + injection H as _ <-; contradiction.
    + destruct (step s l) as [s1 ev] eqn:E.
      destruct (run s1 ls) as [s2 evs] eqn:R.
      injection H as -> <-.
      destruct evs as [|x xs].
      * destruct ev as [m|]; [|contradiction].
        destruct (step_redraw _ _ _ _ E) as [r [c [b [_ ->]]]].
        destruct (run_running_quiet _ _ _ _ _ R) as [Q|[e Q]];
          [|discriminate].
        injection Q as _ _ ->; reflexivity.
      * rewrite last_app_cons; eapply IH; [exact R|discriminate].
  - intros rows cols buffer line s' m H; simpl in H.
    apply main_body_redraw in H; destruct H as [vs [_ [_ [_ [_ ->]]]]].
    reflexivity.
  - intros rows cols b1 b2 line; apply main_body_buffer_indep.
Qed.

Lemma C7_witness :
  run Waiting ["CFG,2,3"; "F,1,1,2,3,4,5,6"; "F,2,6,5,4,3,2,1"; "junk"] =
    (Running 2 3 [[6; 5; 4]; [3; 2; 1]],
     [[[1; 2; 3]; [4; 5; 6]]; [[6; 5; 4]; [3; 2; 1]]]) /\
  [[6; 5; 4]; [3; 2; 1]] =
    last [[[1; 2; 3]; [4; 5; 6]]; [[6; 5; 4]; [3; 2; 1]]] [].
Proof.
  assert (E : run Waiting ["CFG,2,3"; "F,1,1,2,3,4,5,6"; "F,2,6,5,4,3,2,1"; "junk"] =
    (Running 2 3 [[6; 5; 4]; [3; 2; 1]],
     [[[1; 2; 3]; [4; 5; 6]]; [[6; 5; 4]; [3; 2; 1]]])) by reflexivity.
  refine (conj E _).
  exact (proj1 C7_latest_frame_wins _ _ _ _ _ _ E ltac:(discriminate)).
Defined.

(** C8.  No frame is drawn before the configuration: the wait loop never
    redraws, any line whose first token is not ["CFG"] (an ["F"] line
    included) leaves it waiting, and a sequence of such lines draws
    nothing and leaves the script waiting. *)
Theorem C8_no_frame_before_config :
  (forall line, snd (step Waiting line) = None) /\
  (forall line, first_token line <> "CFG" -> fst (step Waiting line) = Waiting) /\
  (forall pre, Forall (fun x => first_token x <> "CFG") pre ->
    run Waiting pre = (Waiting, [])).
Proof.
  split; [|split].
  - intros line; reflexivity.
  - intros line H; apply cfg_wait_not_cfg; exact H.
  - exact run_waiting_no_cfg.
Qed.

Lemma C8_witness :
  Forall (fun x => first_token x <> "CFG") ["F,100,1,2,3,4,5,6"; ""; "CF,1,1"] /\
  run Waiting ["F,100,1,2,3,4,5,6"; ""; "CF,1,1"] = (Waiting, []).
Proof.
  assert (H : Forall (fun x => first_token x <> "CFG")
                ["F,100,1,2,3,4,5,6"; ""; "CF,1,1"]).
  { repeat constructor; vm_compute; discriminate. }
  exact (conj H (proj2 (proj2 C8_no_frame_before_config) _ H)).
Defined.

(** C9 (amended).  Samples are not checked against the display range: on
    a configured grid, an ["F"] line with exactly [rows * cols + 2] tokens
    whose samples are integers in the int32 range is drawn, whatever the
    values (negative ones and ones above 1023 included); a sample that
    [int()] parses to a value outside int32 makes [np.array] raise
    [OverflowError].  Only the colour scale is fixed, to [vmin = 0] and
    [vmax = 1023]: values outside it get the end colours. *)
Theorem C9_samples_not_range_checked :
  (forall rows cols buffer line vs,
    0 <= rows -> 0 <= cols -> first_token line = "F" ->
    Z.of_nat (List.length (py_split "," (py_strip line))) = 2 + rows * cols ->
    frame_samples (py_split "," (py_strip line)) = Some vs ->
    forallb in_int32 vs = true ->
    step (Running rows cols buffer) line =
    (Running rows cols (reshape_rows (Z.to_nat rows) (Z.to_nat cols) vs),
     Some (reshape_rows (Z.to_nat rows) (Z.to_nat cols) vs))) /\
  (forall rows cols buffer line vs v,
    first_token line = "F" ->
    Z.of_nat (List.length (py_split "," (py_strip line))) = 2 + rows * cols ->
    frame_samples (py_split "," (py_strip line)) = Some vs ->
    In v vs -> in_int32 v = false ->
    step (Running rows cols buffer) line = (Stopped OverflowError, None)) /\
  (forall v, vmin <= color_level v <= vmax /\
             (vmin <= v <= vmax -> color_level v = v)).
Proof.
  split; [|split].
  - intros rows cols buffer line vs Hr Hc Hf Hl Hs Hi; simpl.
    apply main_body_accept; auto; lia.
  - intros rows cols buffer line vs v Hf Hl Hs Hin Hv; cbn [step].
    apply (main_body_overflow _ _ _ _ vs v); auto; lia.
  - intros v; unfold color_level, vmin, vmax; split; lia.
Qed.

Lemma C9_witness :
  step (Running 2 3 (np_zeros 2 3)) "F,7,-40,2000,3,4,5,1023" =
    (Running 2 3 [[-40; 2000; 3]; [4; 5; 1023]],
     Some [[-40; 2000; 3]; [4; 5; 1023]]).
Proof.
  exact (proj1 C9_samples_not_range_checked 2 3 (np_zeros 2 3)
    "F,7,-40,2000,3,4,5,1023" [-40; 2000; 3; 4; 5; 1023]
    ltac:(lia) ltac:(lia) eq_refl eq_refl eq_refl eq_refl).
Defined.

(** C9 counterexample: every sample token is an integer and the token
    count is right, yet the sample [2 ^ 64] does not fit [np.int32], so the
    frame is not drawn and the script stops with [OverflowError]. *)
Lemma C9_counterexample :
  Z.of_nat (List.length (py_split ","
    (py_strip "F,100,1,2,3,4,5,18446744073709551616"))) = 2 + 2 * 3 /\
  frame_samples (py_split "," (py_strip "F,100,1,2,3,4,5,18446744073709551616"))
    = Some [1; 2; 3; 4; 5; 2 ^ 64] /\
  step (Running 2 3 (np_zeros 2 3)) "F,100,1,2,3,4,5,18446744073709551616"
    = (Stopped OverflowError, None).
Proof. repeat split; vm_compute; reflexivity. Qed.

(** C10.  [parts[0]] never fails: splitting any stripped line on commas
    gives at least one token, in the wait loop and in the main loop; so the
    main loop never raises [IndexError] at all. *)
Theorem C10_first_token_safe :
  (forall line,
    py_split "," (py_strip line) <> [] /\
    py_index (py_split "," (py_strip line)) 0 = Some (first_token line)) /\
  (forall rows cols buffer line,
    fst (main_body rows cols buffer line) <> Stopped IndexError).
Proof.
  split.
  - intros line; split; [apply py_split_not_nil | apply py_index_first].
  - intros rows cols buffer line; unfold main_body.
    destruct (String.eqb (py_strip line) ""); [discriminate|].
    rewrite py_index_first.
    destruct (frame_guard _ _ _ _); [|discriminate].
    destruct (frame_samples _) as [ints|]; [|discriminate].
    destruct (np_array_int32 ints) as [vs|]; [|discriminate].
    destruct (np_reshape _ _ vs); discriminate.
Qed.

(** ** Further properties of the script *)

Lemma lstrip_chars_idem : forall l, lstrip_chars (lstrip_chars l) = lstrip_chars l.
Proof.
  induction l as [|ch l IH]; simpl; [reflexivity|].
  destruct (py_isspace ch) eqn:E; [exact IH|simpl; rewrite E; reflexivity].
Qed.

Lemma lstrip_chars_head : forall l h t,
  lstrip_chars l = h :: t -> py_isspace h = false.
Proof.
  induction l as [|ch l IH]; intros h t H; simpl in H; [discriminate|].
  destruct (py_isspace ch) eqn:E; [exact (IH _ _ H)|].
  injection H as -> _; exact E.
Qed.

Lemma lstrip_chars_snoc : forall w h,
  py_isspace h = false -> exists w', lstrip_chars (w ++ [h])%list = (w' ++ [h])%list.
Proof.
  induction w as [|a w IH]; intros h Hh; simpl.
  - rewrite Hh; exists []; reflexivity.
  - destruct (py_isspace a); [exact (IH h Hh)|].
    exists (a :: w); reflexivity.
Qed.

Lemma strip_chars_idem : forall l,
  let strip x := rev (lstrip_chars (rev (lstrip_chars x))) in
  strip (strip l) = strip l.
Proof.
  intros l strip; unfold strip.
  assert (Hfix : lstrip_chars (rev (lstrip_chars (rev (lstrip_chars l))))
                 = rev (lstrip_chars (rev (lstrip_chars l)))).
  { destruct (lstrip_chars l) as [|h t] eqn:E; [reflexivity|].
    pose proof (lstrip_chars_head _ _ _ E) as Hh; simpl.
    destruct (lstrip_chars_snoc (rev t) h Hh) as [w' Hw]; rewrite Hw.
    rewrite rev_unit; simpl; rewrite Hh; reflexivity. }
  rewrite Hfix, rev_involutive, lstrip_chars_idem; reflexivity.
Qed.

Lemma py_strip_idem : forall s, py_strip (py_strip s) = py_strip s.
Proof.
  intros s; unfold py_strip at 1 2 3.
  rewrite list_ascii_of_string_of_list_ascii; f_equal.
  exact (strip_chars_idem (list_ascii_of_string s)).
Qed.



Lemma plot_setup_shape : forall rows cols, shape_ok (plot_setup rows cols).
Proof.
  intros rows cols; unfold plot_setup.
  destruct (rows <? 0) eqn:Er; [exact I|].
  destruct (cols <? 0) eqn:Ec; [exact I|].
  destruct (np_zeros_size_ok rows cols); [|exact I]; simpl.
  apply Z.ltb_ge in Er, Ec; split; [exact Er|split; [exact Ec|]].
  unfold matrix_shape, np_zeros; split; [apply repeat_length|].
  apply Forall_forall; intros row Hrow; apply repeat_spec in Hrow.
  subst row; apply repeat_length.
Qed.

Lemma cfg_wait_body_shape : forall line, shape_ok (cfg_wait_body line).
Proof.
  intros line; unfold cfg_wait_body.
  destruct (py_index _ 0) as [p0|]; [|exact I].
  destruct (String.eqb p0 "CFG"); [|exact I].
  destruct (py_index (py_split "," (py_strip line)) 1) as [t1|]; [|exact I].
  destruct (py_int t1) as [rows|]; [|exact I].
  destruct (py_index (py_split "," (py_strip line)) 2) as [t2|]; [|exact I].
  destruct (py_int t2) as [cols|]; [|exact I].
  apply plot_setup_shape.
Qed.

Lemma step_shape : forall s line, shape_ok s -> shape_ok (fst (step s line)).
Proof.
  intros [|rows cols buffer|e] line Hs; simpl; [apply cfg_wait_body_shape| |exact I].
  destruct (main_body rows cols buffer line) as [s' ev] eqn:E; simpl.
  pose proof E as E'; apply main_body_cases in E.
  destruct E as [[-> _] | [[m [-> ->]] | [e [-> _]]]]; [exact Hs| |exact I].
  destruct Hs as [Hr [Hc _]]; split; [exact Hr|split; [exact Hc|]].
  apply main_body_redraw in E'; destruct E' as [vs [_ [_ [Hl [-> _]]]]].
  apply reshape_rows_shape; lia.
Qed.

Lemma run_shape : forall lines s, shape_ok s -> shape_ok (fst (run s lines)).
Proof.
  induction lines as [|l ls IH]; intros s Hs; simpl; [exact Hs|].
  destruct (step s l) as [s1 ev] eqn:E.
  destruct (run s1 ls) as [s2 evs] eqn:R; simpl.
  assert (H1 : shape_ok s1) by (change s1 with (fst (s1, ev)); rewrite <- E;
                                apply step_shape; exact Hs).
  specialize (IH s1 H1); rewrite R in IH; exact IH.
Qed.

(** X1.  An ["F"] line with more than [rows * cols + 2] tokens passes the
    guard of line 45 ([>=]), and when its samples are int32 integers the
    [reshape] of line 48 raises [ValueError]: the script stops. *)
Theorem X1_long_frame_stops : forall rows cols buffer line vs,
  0 <= rows -> 0 <= cols -> first_token line = "F" ->
  2 + rows * cols < Z.of_nat (List.length (py_split "," (py_strip line))) ->
  frame_samples (py_split "," (py_strip line)) = Some vs ->
  forallb in_int32 vs = true ->
  step (Running rows cols buffer) line = (Stopped ValueError, None).
Proof.
  intros rows cols buffer line vs Hr Hc Hf Hlt Hs Hi; simpl.
  rewrite main_body_guard_pass by (auto; lia).
  rewrite Hs; unfold np_array_int32; rewrite Hi; unfold np_reshape.
  replace (Z.of_nat (List.length vs) =? rows * cols) with false; [reflexivity|].
  symmetry; apply Z.eqb_neq.
  unfold frame_samples in Hs; apply map_int_length in Hs.
  rewrite Hs, length_skipn; lia.
Qed.

Lemma X1_witness :
  step (Running 2 3 (np_zeros 2 3)) "F,100,1,2,3,4,5,6,7"
    = (Stopped ValueError, None).
Proof.
  exact (X1_long_frame_stops 2 3 (np_zeros 2 3) "F,100,1,2,3,4,5,6,7"
    [1; 2; 3; 4; 5; 6; 7] ltac:(lia) ltac:(lia) eq_refl
    ltac:(vm_compute; reflexivity) eq_refl eq_refl).
Defined.

(** X2.  In an ["F"] line that passes the guard, one sample token that
    [int()] rejects (an empty token from [",,"] or a trailing comma
    included) stops the script with [ValueError], whatever the other
    tokens. *)
Theorem X2_bad_sample_stops : forall rows cols buffer line t,
  first_token line = "F" ->
  2 + rows * cols <= Z.of_nat (List.length (py_split "," (py_strip line))) ->
  In t (skipn 2 (py_split "," (py_strip line))) -> py_int t = None ->
  step (Running rows cols buffer) line = (Stopped ValueError, None).
Proof.
  intros rows cols buffer line t Hf Hle Hin Ht; simpl.
  rewrite main_body_guard_pass by assumption.
  unfold frame_samples; rewrite (map_int_reject _ t Hin Ht); reflexivity.
Qed.

Lemma X2_witness :
  step (Running 2 3 (np_zeros 2 3)) "F,100,1,,3,4,5,6"
    = (Stopped ValueError, None).
Proof.
  exact (X2_bad_sample_stops 2 3 (np_zeros 2 3) "F,100,1,,3,4,5,6" ""
    eq_refl ltac:(vm_compute; discriminate)
    ltac:(vm_compute; tauto) eq_refl).
Defined.

(** X3.  In an ["F"] line that passes the guard and whose sample tokens
    are all integers, one value outside the int32 range stops the script
    with [OverflowError] from [np.array(..., dtype=np.int32)]. *)
Theorem X3_int32_overflow_stops : forall rows cols buffer line vs v,
  first_token line = "F" ->
  2 + rows * cols <= Z.of_nat (List.length (py_split "," (py_strip line))) ->
  frame_samples (py_split "," (py_strip line)) = Some vs ->
  In v vs -> in_int32 v = false ->
  step (Running rows cols buffer) line = (Stopped OverflowError, None).
Proof.
  intros rows cols buffer line vs v Hf Hle Hs Hin Hv; cbn [step].
  exact (main_body_overflow _ _ _ _ _ _ Hf Hle Hs Hin Hv).
Qed.

Lemma X3_witness :
  step (Running 2 3 (np_zeros 2 3)) "F,100,1,2,3,4,5,-2147483649"
    = (Stopped OverflowError, None).
Proof.
  exact (X3_int32_overflow_stops 2 3 (np_zeros 2 3)
    "F,100,1,2,3,4,5,-2147483649" [1; 2; 3; 4; 5; -2147483649] (-2147483649)
    eq_refl ltac:(vm_compute; discriminate) eq_refl
    ltac:(simpl; tauto) eq_refl).
Defined.

(** X4.  [line.split(",")] loses nothing: joining the tokens with commas
    gives the line back. *)
Theorem X4_split_join : forall s, String.concat "," (py_split "," s) = s.
Proof.
  induction s as [|ch rest IH]; [reflexivity|]; simpl.
  pose proof (py_split_not_nil "," rest) as Hne.
  destruct (py_split "," rest) as [|p ps] eqn:Ep; [contradiction|].
  destruct (Ascii.eqb_spec ch ",") as [->|Hch].
  - destruct ps as [|q qs]; simpl in IH |- *; rewrite IH; reflexivity.
  - destruct ps as [|q qs]; simpl in IH |- *; rewrite IH; reflexivity.
Qed.

(** X5.  The token count that the guard of line 45 compares with
    [rows * cols + 2] is one more than the number of commas in the stripped
    line. *)
Theorem X5_token_count_commas : forall line,
  List.length (py_split "," (py_strip line))
  = S (count_char "," (py_strip line)).
Proof.
  intros line; generalize (py_strip line) as s.
  induction s as [|ch rest IH]; [reflexivity|]; simpl.
  pose proof (py_split_not_nil "," rest) as Hne.
  destruct (py_split "," rest) as [|p ps] eqn:Ep; [contradiction|].
  destruct (Ascii.eqb_spec ch ",") as [->|Hch]; simpl in IH |- *.
  - lia.
  - replace (Ascii.eqb ch ",") with false
      by (symmetry; apply Ascii.eqb_neq; exact Hch).
    exact IH.
Qed.

(** X6.  A line that is empty after [strip()] (a read timeout returns the
    empty line) changes nothing and draws nothing, in the wait loop as in
    the main loop. *)
Theorem X6_blank_line_noop : forall s line,
  py_strip line = "" -> step s line = (s, None).
Proof.
  intros [|rows cols buffer|e] line H; cbn [step].
  - unfold cfg_wait_body; rewrite H; reflexivity.
  - unfold main_body; rewrite H; reflexivity.
  - reflexivity.
Qed.

Lemma X6_witness :
  step (Running 2 3 (np_zeros 2 3)) "   " = (Running 2 3 (np_zeros 2 3), None).
Proof. exact (X6_blank_line_noop (Running 2 3 (np_zeros 2 3)) "   " eq_refl). Defined.

(** X7.  Both loops only look at [line.strip()], and stripping twice is
    stripping once: leading and trailing whitespace (the ["\r\n"] of a
    line included) never changes what a line does. *)
Theorem X7_surrounding_whitespace_irrelevant : forall s line,
  py_strip (py_strip line) = py_strip line /\
  step s (py_strip line) = step s line.
Proof.
  intros s line; split; [apply py_strip_idem|].
  destruct s as [|rows cols buffer|e]; cbn [step].
  - unfold cfg_wait_body; rewrite py_strip_idem; reflexivity.
  - unfold main_body; rewrite py_strip_idem; reflexivity.
  - reflexivity.
Qed.

(** X8.  Whatever lines the script reads, while it is running its grid has
    non-negative dimensions and the buffer shown is a [rows x cols]
    matrix: first the [np.zeros] placeholder, then each drawn frame. *)
Theorem X8_buffer_shape_invariant : forall lines,
  shape_ok (fst (run Waiting lines)).
Proof. intros lines; apply run_shape; exact I. Qed.
